(** * IFRS 17 claim accrual estimator: embedding and verified properties

  Shallow embedding of [estimator.py] (chain ladder, risk adjustment,
  discounting, accrual orchestration), of the fixed tables and the
  calculation helpers of [app_old.py] and of the rule-based bracket
  classifier in [app.py].

  Python [float] and NumPy [float64] are IEEE-754 binary64 numbers and are
  modelled by Rocq's primitive floats; Python [int] is [Z]; [str] is
  [string]; a [dict] with string keys is a [gmap string _]. *)

From Stdlib Require Import ZArith PrimFloat.
From Stdlib Require Floats.
From stdpp Require Import gmap strings list fin_maps pretty.

Set Warnings "-inexact-float".
Local Open Scope Z_scope.

(** ** Python built-ins used by the sources *)

Module Py.

(** [min(a, b)] on two ints: Python returns [b] only when [b < a]. *)
Definition min_int (a b : Z) : Z := if b <? a then b else a.

(** [min(a, b)] on two floats, same rule. *)
Definition min_float (a b : float) : float :=
  if PrimFloat.ltb b a then b else a.

(** [l[i:]] for an int [i]: a negative [i] counts from the end of the list
    and is floored at the start; an [i] past the end gives []. *)
Definition slice_from {A} (l : list A) (i : Z) : list A :=
  if i <? 0
  then drop (Z.to_nat (Z.max 0 (Z.of_nat (length l) + i))) l
  else drop (Z.to_nat i) l.

(** [np.prod] of a one-dimensional float sequence: [multiply.reduce] runs
    left to right; the product of nothing is [1.0]. *)
Definition prod (l : list float) : float :=
  foldl PrimFloat.mul 1%float l.

(** [d.get(k, dflt)] *)
Definition get {V} (d : gmap string V) (k : string) (dflt : V) : V :=
  default dflt (d !! k).

End Py.

(** ** [class ChainLadder] *)

Module ChainLadder.

Record t := { patterns : gmap string (list float) }.

(** The dict returned by [estimate_ultimate]. *)
Record estimate := {
  incurred : float;
  development_period : Z;
  cumulative_factor : float;
  ultimate_loss : float;
  ibnr : float
  }.

Definition lookup_ldfs (self : t) (claim_type : string) : list float :=
  Py.get (patterns self) claim_type
         (Py.get (patterns self) "Auto" [1%float]).

Definition get_cumulative_factor (self : t) (claim_type : string)
    (development_period : Z) : float :=
  let ldfs := lookup_ldfs self claim_type in
  let period := Py.min_int development_period (Z.of_nat (length ldfs) - 1) in
  if Z.of_nat (length ldfs) - 1 <=? period
  then 1%float
  else Py.prod (Py.slice_from ldfs period).

Definition estimate_ultimate (self : t) (incurred : float)
    (claim_type : string) (development_period : Z) : estimate :=
  let cdf := get_cumulative_factor self claim_type development_period in
  let ultimate := PrimFloat.mul incurred cdf in
  {| incurred := incurred;
     development_period := development_period;
     cumulative_factor := cdf;
     ultimate_loss := ultimate;
     ibnr := PrimFloat.sub ultimate incurred |}.

End ChainLadder.

(** ** Fixed tables of [app_old.py] *)

Definition LDF_PATTERNS : gmap string (list float) :=
  list_to_map
    [ ("Auto", [3.5; 2.2; 1.5; 1.2; 1.1; 1.05; 1.02; 1.01; 1.005; 1.0]);
      ("Property", [2.8; 1.9; 1.4; 1.15; 1.08; 1.04; 1.02; 1.01; 1.005; 1.0]);
      ("Liability", [5.0; 3.5; 2.5; 1.8; 1.4; 1.2; 1.1; 1.05; 1.02; 1.01]);
      ("Health", [2.0; 1.5; 1.2; 1.1; 1.05; 1.02; 1.01; 1.005; 1.0; 1.0]);
      ("Workers Comp", [4.5; 3.0; 2.2; 1.6; 1.3; 1.15; 1.08; 1.04; 1.02; 1.01])
    ]%float.

Definition RISK_ADJUSTMENT_FACTORS : gmap string float :=
  list_to_map [ ("Low", 0.05); ("Medium", 0.10); ("High", 0.20) ]%float.

(** ** [class RiskAdjustment] *)

Module RiskAdjustment.

Record t := { factors : gmap string float }.

(** The dict returned by [calculate]. *)
Record result := {
  ultimate_loss : float;
  risk_level : string;
  risk_factor : float;
  risk_adjustment : float
}.

Definition calculate (self : t) (ultimate_loss : float) (risk_level : string)
    : result :=
  let factor := Py.get (factors self) risk_level 0.10%float in
  let adjustment := PrimFloat.mul ultimate_loss factor in
  {| ultimate_loss := ultimate_loss;
     risk_level := risk_level;
     risk_factor := factor;
     risk_adjustment := adjustment |}.

End RiskAdjustment.

(** ** [class Discounting] *)

Module Discounting.

Record t := { rate : float }.

(** The dict returned by [calculate_pv]. *)
Record result := {
  future_value : float;
  years : float;
  discount_rate : float;
  discount_factor : float;
  present_value : float;
  discount_amount : float
}.

Section WithPow.

(** Python's [x ** y] on floats is the C library's [pow]; it is not code of
    this repository and is taken as given. *)
Variable float_pow : float -> float -> float.

Definition calculate_pv (self : t) (future_value years : float) : result :=
  let '(discount_factor, present_value) :=
    if PrimFloat.leb years 0%float
    then (1%float, future_value)
    else
      let discount_factor :=
        float_pow (PrimFloat.add 1%float (rate self)) (PrimFloat.opp years) in
      (discount_factor, PrimFloat.mul future_value discount_factor) in
  let discount_amount := PrimFloat.sub future_value present_value in
  {| future_value := future_value;
     years := years;
     discount_rate := rate self;
     discount_factor := discount_factor;
     present_value := present_value;
     discount_amount := discount_amount |}.

End WithPow.

End Discounting.

(** ** [class IFRS17Accrual] *)

Module IFRS17Accrual.

Record t := {
  chain_ladder : ChainLadder.t;
  risk_adjustment : RiskAdjustment.t;
  discounting : Discounting.t
}.

(** The dict returned by [calculate_accrual]. *)
Record accrual := {
  incurred : float;
  paid : float;
  ultimate_loss : float;
  outstanding_claims : float;
  risk_adjustment_amount : float;   (* key 'risk_adjustment' *)
  pv_ultimate : float;
  pv_outstanding : float;
  discount_amount : float;
  total_accrual : float;
  development_period : Z;
  years_to_settlement : float;
  risk_level : string
}.

Section WithPow.

Variable float_pow : float -> float -> float.

Definition calculate_accrual (self : t) (incurred paid : float)
    (claim_type : string) (development_period : Z)
    (years_to_settlement : float) (risk_level : string) : accrual :=
  (* Step 1: estimate ultimate loss *)
  let ultimate_est :=
    ChainLadder.estimate_ultimate (chain_ladder self)
      incurred claim_type development_period in
  let ultimate := ChainLadder.ultimate_loss ultimate_est in
  (* Step 2: outstanding claims *)
  let outstanding := PrimFloat.sub ultimate paid in
  (* Step 3: risk adjustment *)
  let risk_adj :=
    RiskAdjustment.calculate (risk_adjustment self) ultimate risk_level in
  (* Step 4: discount ultimate and outstanding *)
  let pv_ultimate :=
    Discounting.calculate_pv float_pow (discounting self)
      ultimate years_to_settlement in
  let pv_outstanding :=
    Discounting.calculate_pv float_pow (discounting self)
      outstanding years_to_settlement in
  (* Step 5: total accrual *)
  let total_accrual :=
    PrimFloat.add (Discounting.present_value pv_outstanding)
                  (RiskAdjustment.risk_adjustment risk_adj) in
  {| incurred := incurred;
     paid := paid;
     ultimate_loss := ultimate;
     outstanding_claims := outstanding;
     risk_adjustment_amount := RiskAdjustment.risk_adjustment risk_adj;
     pv_ultimate := Discounting.present_value pv_ultimate;
     pv_outstanding := Discounting.present_value pv_outstanding;
     discount_amount := Discounting.discount_amount pv_ultimate;
     total_accrual := total_accrual;
     development_period := development_period;
     years_to_settlement := years_to_settlement;
     risk_level := risk_level |}.

End WithPow.

End IFRS17Accrual.

(** ** The bracket classifier of [app.py] *)

Module Bracket.

Definition stage_weights : gmap string Z :=
  list_to_map
    [ ("Reported", 1); ("Under Investigation", 2); ("Evaluated", 3);
      ("Settlement Negotiation", 4); ("Closed", 5) ].

Definition severity_weights : gmap string Z :=
  list_to_map
    [ ("Minor", 1); ("Moderate", 2); ("Severe", 3); ("Catastrophic", 4) ].

Definition extended_investigation_warning : string :=
  "⚠️ Extended investigation period (>12 months) increases uncertainty".
Definition moderate_investigation_warning : string :=
  "⚠️ Moderate investigation period (6-12 months)".
Definition ibnr_warning : string :=
  "⚠️ IBNR claim - higher uncertainty in estimation".
Definition catastrophic_warning : string :=
  "⚠️ Catastrophic severity - consult senior actuarial team".

(** The three local variables [calculate_accrual_bracket] updates in place. *)
Record locals := {
  accrual_level : Z;
  warnings : list string;
  uncertainty_score : float
}.

Definition initial : locals :=
  {| accrual_level := 0; warnings := []; uncertainty_score := 0%float |}.

(** [accrual_level += n] *)
Definition add_level (n : Z) (st : locals) : locals :=
  {| accrual_level := accrual_level st + n;
     warnings := warnings st;
     uncertainty_score := uncertainty_score st |}.

(** [warnings.append(w)] *)
Definition append_warning (w : string) (st : locals) : locals :=
  {| accrual_level := accrual_level st;
     warnings := warnings st ++ [w];
     uncertainty_score := uncertainty_score st |}.

(** [uncertainty_score += x] *)
Definition add_uncertainty (x : float) (st : locals) : locals :=
  {| accrual_level := accrual_level st;
     warnings := warnings st;
     uncertainty_score := PrimFloat.add (uncertainty_score st) x |}.

(** Stage-based accrual adjustment. *)
Definition stage_adjustment (claim_stage : string) (st : locals) : locals :=
  add_level (Py.get stage_weights claim_stage 1) st.

(** Severity-based adjustment. *)
Definition severity_adjustment (severity_bracket : string) (st : locals)
    : locals :=
  add_level (Py.get severity_weights severity_bracket 1) st.

(** Investigation duration adjustment. *)
Definition duration_adjustment (investigation_duration : Z) (st : locals)
    : locals :=
  if 12 <? investigation_duration then
    add_uncertainty 0.25
      (append_warning extended_investigation_warning (add_level 2 st))
  else if 6 <? investigation_duration then
    add_uncertainty 0.15
      (append_warning moderate_investigation_warning (add_level 1 st))
  else st.

(** IBNR flag adjustment: the flag is the radio's string, compared with
    ["Yes"]. *)
Definition ibnr_adjustment (ibnr_flag : string) (st : locals) : locals :=
  if String.eqb ibnr_flag "Yes" then
    add_uncertainty 0.30 (append_warning ibnr_warning (add_level 2 st))
  else st.

(** Additional uncertainty factors. *)
Definition stage_uncertainty (claim_stage : string) (st : locals) : locals :=
  if String.eqb claim_stage "Reported" then add_uncertainty 0.20 st
  else if String.eqb claim_stage "Under Investigation"
       then add_uncertainty 0.15 st
  else st.

Definition severity_uncertainty (severity_bracket : string) (st : locals)
    : locals :=
  if String.eqb severity_bracket "Catastrophic" then
    append_warning catastrophic_warning (add_uncertainty 0.20 st)
  else st.

(** Cap uncertainty at 1.0. *)
Definition cap_uncertainty (st : locals) : locals :=
  {| accrual_level := accrual_level st;
     warnings := warnings st;
     uncertainty_score := Py.min_float (uncertainty_score st) 1%float |}.

(** Determine accrual bracket (symbolic only). *)
Definition determine_bracket (accrual_level : Z) : string :=
  if accrual_level <=? 3 then "Band A (Low Reserve)"
  else if accrual_level <=? 5 then "Band B (Moderate Reserve)"
  else if accrual_level <=? 7 then "Band C (Elevated Reserve)"
  else if accrual_level <=? 9 then "Band D (High Reserve)"
  else "Band E (Maximum Reserve)".

(** The locals as they stand just before the IBNR flag is looked at. *)
Definition before_ibnr (claim_stage severity_bracket : string)
    (investigation_duration : Z) : locals :=
  duration_adjustment investigation_duration
    (severity_adjustment severity_bracket
      (stage_adjustment claim_stage initial)).

(** What the function does to the locals after the IBNR adjustment. *)
Definition after_ibnr (claim_stage severity_bracket : string) (st : locals)
    : locals :=
  cap_uncertainty
    (severity_uncertainty severity_bracket
      (stage_uncertainty claim_stage st)).

(** The locals when the bracket is determined. *)
Definition score (claim_stage severity_bracket : string)
    (investigation_duration : Z) (ibnr_flag : string) : locals :=
  after_ibnr claim_stage severity_bracket
    (ibnr_adjustment ibnr_flag
      (before_ibnr claim_stage severity_bracket investigation_duration)).

Definition nl : string := String (Ascii.ascii_of_nat 10) EmptyString.

(** Each element followed by a line feed. *)
Definition lines (ls : list string) : string :=
  foldr (fun l acc => l +:+ nl +:+ acc) "" ls.

Definition mandatory_disclaimers : string :=
  lines [
    "";
    "";
    "---";
    "";
    "### 🔴 MANDATORY HUMAN REVIEW";
    "";
    "**CRITICAL:** This is a symbolic accrual bracket estimation tool only. ";
    "";
    "**Required Actions:**";
    "- ✅ **Consult Finance Team**: All accrual decisions must be reviewed by qualified finance/actuarial staff";
    "- ✅ **Verify Assumptions**: Validate all input parameters and assumptions";
    "- ✅ **Apply Company Policy**: Use company-specific reserving policies and guidelines";
    "- ✅ **Consider All Factors**: This tool uses simplified rules - real accruals require comprehensive analysis";
    "- ✅ **Document Decisions**: Maintain proper documentation for all reserve decisions";
    "";
    "**This tool does NOT:**";
    "- ❌ Calculate actual monetary reserve amounts";
    "- ❌ Apply company-specific reserving formulas";
    "- ❌ Consider reinsurance or other risk transfers";
    "- ❌ Account for regulatory or accounting policy specifics";
    "- ❌ Replace professional actuarial judgment";
    "";
    "---";
    "";
    "### ⚠️ Compliance Notice";
    "";
    "This project models generic insurance concepts. All outputs are synthetic and made-up for demonstration purposes. ";
    "No proprietary pricing, underwriting rules, policy wording, or confidential logic was used. ";
    "";
    "**Outputs are illustrative only and require human review.** ";
    "";
    "Not to be used for any pricing, reserving, claim approval, or policy issuance.";
    "";
    "**Human-in-the-loop is mandatory for all financial decisions.**"
  ].

Section WithFormat.

(** [format(x, ".2f")] of a float: Python's formatter, taken as given. *)
Variable format_2f : float -> string.

Definition generate_explanation (claim_stage severity_bracket : string)
    (investigation_duration : Z) (ibnr_flag bracket : string)
    (accrual_level : Z) (warnings : list string) (uncertainty_score : float)
    : string :=
  let explanation := lines [
    "### IFRS 17 Accrual Bracket Estimation";
    "";
    "**Claim Stage:** " +:+ claim_stage;
    "**Severity Bracket:** " +:+ severity_bracket;
    "**Investigation Duration:** " +:+ pretty investigation_duration
       +:+ " months";
    "**IBNR Flag:** " +:+ ibnr_flag;
    "";
    "---";
    "";
    "**Estimated Accrual Bracket:** " +:+ bracket;
    "**Accrual Level Score:** " +:+ pretty accrual_level +:+ "/10+";
    "**Uncertainty Score:** " +:+ format_2f uncertainty_score;
    "";
    "---";
    "";
    "#### Factors Considered:";
    ""
  ] in
  (* stage factor *)
  let explanation :=
    explanation +:+ "- **Claim Stage (" +:+ claim_stage +:+ ")**: " in
  let explanation := explanation +:+ lines [
    if String.eqb claim_stage "Closed" then
      "Claim is closed, accrual should reflect final settlement"
    else if String.eqb claim_stage "Settlement Negotiation" then
      "Active settlement discussions, accrual near final amount"
    else if String.eqb claim_stage "Evaluated" then
      "Claim evaluated, accrual based on assessment"
    else if String.eqb claim_stage "Under Investigation" then
      "Investigation ongoing, accrual includes development potential"
    else
      "Early stage, accrual includes significant development uncertainty" ] in
  (* severity factor *)
  let explanation :=
    explanation +:+ "- **Severity (" +:+ severity_bracket +:+ ")**: " in
  let explanation := explanation +:+ lines [
    if String.eqb severity_bracket "Catastrophic" then
      "Catastrophic severity requires maximum reserve consideration"
    else if String.eqb severity_bracket "Severe" then
      "Severe claims require elevated reserve levels"
    else if String.eqb severity_bracket "Moderate" then
      "Moderate severity with standard reserve approach"
    else
      "Minor severity with lower reserve requirements" ] in
  (* investigation duration factor *)
  let explanation :=
    explanation +:+ "- **Investigation Duration ("
      +:+ pretty investigation_duration +:+ " months)**: " in
  let explanation := explanation +:+ lines [
    if 12 <? investigation_duration then
      "Extended investigation suggests complexity and higher uncertainty"
    else if 6 <? investigation_duration then
      "Moderate investigation period indicates some complexity"
    else
      "Standard investigation timeframe" ] in
  (* IBNR factor *)
  let explanation :=
    explanation +:+ "- **IBNR Status (" +:+ ibnr_flag +:+ ")**: " in
  let explanation := explanation +:+ lines [
    if String.eqb ibnr_flag "Yes" then
      "Incurred But Not Reported - requires additional reserve margin"
    else
      "Reported claim with known details" ] in
  (* warnings section *)
  let explanation :=
    match warnings with
    | [] => explanation
    | _ =>
      foldl (fun acc warning => acc +:+ "- " +:+ warning +:+ nl)
        (explanation +:+ nl +:+
           lines ["---"; ""; "#### ⚠️ Warnings & Considerations:"; ""])
        warnings
    end in
  (* mandatory disclaimers *)
  explanation +:+ mandatory_disclaimers.

(** [calculate_accrual_bracket] returns [(bracket, explanation,
    uncertainty_score)]. *)
Definition calculate_accrual_bracket (claim_stage severity_bracket : string)
    (investigation_duration : Z) (ibnr_flag : string)
    : string * string * float :=
  let st := score claim_stage severity_bracket investigation_duration
                  ibnr_flag in
  let bracket := determine_bracket (accrual_level st) in
  let explanation :=
    generate_explanation claim_stage severity_bracket investigation_duration
      ibnr_flag bracket (accrual_level st) (warnings st)
      (uncertainty_score st) in
  (bracket, explanation, uncertainty_score st).

End WithFormat.

End Bracket.

(** ** The calculation helpers of [app_old.py] *)

Module AppOld.

(** [calculate_ultimate_loss]: the chain ladder over [LDF_PATTERNS], on
    whole years of development. [months // 12] is floor division;
    [LDF_PATTERNS["Auto"]] is the subscript of a key the table holds. *)
Definition calculate_ultimate_loss (incurred_loss : float)
    (claim_type : string) (months_since_occurrence : Z) : float :=
  let ldfs := Py.get LDF_PATTERNS claim_type (LDF_PATTERNS !!! "Auto") in
  let years_developed :=
    Py.min_int (months_since_occurrence / 12) (Z.of_nat (length ldfs) - 1) in
  let cdf :=
    if Z.of_nat (length ldfs) - 1 <=? years_developed
    then 1%float
    else Py.prod (Py.slice_from ldfs years_developed) in
  PrimFloat.mul incurred_loss cdf.

(** [calculate_risk_adjustment] *)
Definition calculate_risk_adjustment (ultimate_loss : float)
    (risk_level : string) : float :=
  let factor := Py.get RISK_ADJUSTMENT_FACTORS risk_level 0.10%float in
  PrimFloat.mul ultimate_loss factor.

Section WithArithmetic.

(** The C library's [pow] behind [**], and Python's true division of two
    ints (the correctly rounded quotient), both taken as given. *)
Variable float_pow : float -> float -> float.
Variable int_truediv : Z -> Z -> float.

(** [calculate_discount] returns [(present_value, discount_amount)]; it
    discounts whatever the number of months. *)
Definition calculate_discount (ultimate_loss : float)
    (months_to_settlement : Z) (discount_rate : float) : float * float :=
  let years_to_settlement := int_truediv months_to_settlement 12 in
  let discount_factor :=
    float_pow (PrimFloat.add 1%float discount_rate)
              (PrimFloat.opp years_to_settlement) in
  let present_value := PrimFloat.mul ultimate_loss discount_factor in
  let discount_amount := PrimFloat.sub ultimate_loss present_value in
  (present_value, discount_amount).

End WithArithmetic.

End AppOld.

(** ** Instances and comparisons used in the statements *)

(** The chain ladder over the fixed development patterns. *)
Definition demo_ladder : ChainLadder.t :=
  {| ChainLadder.patterns := LDF_PATTERNS |}.

(** The complete calculator over the fixed tables, at a given rate. *)
Definition demo_accrual (discount_rate : float) : IFRS17Accrual.t :=
  {| IFRS17Accrual.chain_ladder := demo_ladder;
     IFRS17Accrual.risk_adjustment :=
       {| RiskAdjustment.factors := RISK_ADJUSTMENT_FACTORS |};
     IFRS17Accrual.discounting := {| Discounting.rate := discount_rate |} |}.

(** The ten Auto development factors. *)
Definition auto_ldfs : list float :=
  [3.5; 2.2; 1.5; 1.2; 1.1; 1.05; 1.02; 1.01; 1.005; 1.0]%float.

(** [x] is within the relative tolerance [tol] of the quoted figure [y]. *)
Definition within_rel (tol x y : float) : bool :=
  PrimFloat.leb (PrimFloat.abs (PrimFloat.sub x y))
                (PrimFloat.mul tol (PrimFloat.abs y)).

(** The last index of the pattern a claim type resolves to. *)
Definition last_index (self : ChainLadder.t) (claim_type : string) : Z :=
  Z.of_nat (length (ChainLadder.lookup_ldfs self claim_type)) - 1.

(** A period clamped to [[0, len(pattern) - 1]], as the comment in
    [get_cumulative_factor] describes it. *)
Definition clamp_period (self : ChainLadder.t) (claim_type : string)
    (development_period : Z) : Z :=
  Z.max 0 (Z.min development_period (last_index self claim_type)).

(** The ultimate loss step 1 of [calculate_accrual] obtains. *)
Definition ultimate_of (self : IFRS17Accrual.t) (incurred : float)
    (claim_type : string) (development_period : Z) : float :=
  ChainLadder.ultimate_loss
    (ChainLadder.estimate_ultimate (IFRS17Accrual.chain_ladder self)
       incurred claim_type development_period).

(** The risk adjustment over the fixed factors. *)
Definition demo_risk : RiskAdjustment.t :=
  {| RiskAdjustment.factors := RISK_ADJUSTMENT_FACTORS |}.

(** The classifier's locals before the cap is applied. *)
Definition uncapped_score (claim_stage severity_bracket : string)
    (investigation_duration : Z) (ibnr_flag : string) : Bracket.locals :=
  Bracket.severity_uncertainty severity_bracket
    (Bracket.stage_uncertainty claim_stage
       (Bracket.ibnr_adjustment ibnr_flag
          (Bracket.before_ibnr claim_stage severity_bracket
             investigation_duration))).

(** The warnings as a section of the explanation: nothing without warnings,
    otherwise a rule, a heading and one bullet per warning, in order. *)
Definition warnings_section (warnings : list string) : string :=
  match warnings with
  | [] => ""
  | _ =>
    Bracket.nl +:+
    Bracket.lines ["---"; ""; "#### ⚠️ Warnings & Considerations:"; ""] +:+
    foldr (fun warning rest => "- " +:+ warning +:+ Bracket.nl +:+ rest)
          "" warnings
  end.

(** * Verified properties *)

(** ** Floats *)

Lemma float_neq (x y : float) :
  PrimFloat.eqb x x = true -> PrimFloat.eqb x y = false -> x <> y.
Proof. intros Hxx Hxy <-. congruence. Qed.

(** ** Chain ladder *)

Lemma min_int_spec (a b : Z) : Py.min_int a b = Z.min a b.
Proof. unfold Py.min_int. destruct (Z.ltb_spec b a); lia. Qed.

Lemma factor_fully_developed (self : ChainLadder.t) (claim_type : string)
    (development_period : Z) :
  last_index self claim_type <= development_period ->
  ChainLadder.get_cumulative_factor self claim_type development_period
  = 1%float.
Proof.
  unfold last_index, ChainLadder.get_cumulative_factor. intros Hge.
  rewrite min_int_spec, Z.min_r by lia.
  by rewrite Z.leb_refl.
Qed.

Lemma factor_not_developed (self : ChainLadder.t) (claim_type : string)
    (development_period : Z) :
  development_period < last_index self claim_type ->
  ChainLadder.get_cumulative_factor self claim_type development_period
  = Py.prod (Py.slice_from (ChainLadder.lookup_ldfs self claim_type)
                           development_period).
Proof.
  unfold last_index, ChainLadder.get_cumulative_factor. intros Hlt.
  rewrite min_int_spec, Z.min_l by lia.
  destruct (Z.leb_spec (Z.of_nat (length (ChainLadder.lookup_ldfs self claim_type)) - 1)
                       development_period); [lia | done].
Qed.

(** C6: at or past the last index of the looked-up pattern the cumulative
    factor is exactly 1.0, whatever the claim type and the table. *)
Theorem cumulative_factor_past_last_index (self : ChainLadder.t)
    (claim_type : string) (development_period : Z) :
  Z.of_nat (length (ChainLadder.lookup_ldfs self claim_type)) - 1
    <= development_period ->
  ChainLadder.get_cumulative_factor self claim_type development_period
  = 1%float.
Proof. apply factor_fully_developed. Qed.

Lemma cumulative_factor_past_last_index_witness :
  Z.of_nat (length (ChainLadder.lookup_ldfs demo_ladder "Liability")) - 1 <= 12
  /\ ChainLadder.get_cumulative_factor demo_ladder "Liability" 12 = 1%float.
Proof.
  split; [vm_compute; discriminate |].
  apply (cumulative_factor_past_last_index demo_ladder "Liability" 12).
  vm_compute; discriminate.
Defined.

(** For a period that is not negative the factor is the factor of the
    clamped period: the upper bound is the only one the code enforces. *)
Lemma factor_clamped_nonneg (self : ChainLadder.t) (claim_type : string)
    (development_period : Z) :
  0 <= development_period ->
  ChainLadder.get_cumulative_factor self claim_type development_period
  = ChainLadder.get_cumulative_factor self claim_type
      (clamp_period self claim_type development_period).
Proof.
  intros Hnn. unfold clamp_period.
  destruct (Z.le_gt_cases (last_index self claim_type) development_period)
    as [Hge | Hlt].
  - rewrite !factor_fully_developed; [done | lia | done].
  - by rewrite Z.min_l, Z.max_r by lia.
Qed.

(** C7 (the code departs from the claim): a negative period is not raised
    to 0. With the fixed Auto pattern, period -1 slices the last factor only
    and yields 1.0, while the clamped period 0 yields the full product. *)
Theorem negative_period_not_clamped :
  clamp_period demo_ladder "Auto" (-1) = 0
  /\ ChainLadder.get_cumulative_factor demo_ladder "Auto" (-1) = 1%float
  /\ ChainLadder.get_cumulative_factor demo_ladder "Auto" 0
     = 16.5742094133%float
  /\ ChainLadder.get_cumulative_factor demo_ladder "Auto" (-1)
     <> ChainLadder.get_cumulative_factor demo_ladder "Auto"
          (clamp_period demo_ladder "Auto" (-1)).
Proof.
  repeat split; try (vm_compute; reflexivity).
  apply float_neq; vm_compute; reflexivity.
Qed.

(** A claim type missing from the table resolves to the pattern that
    "Auto" resolves to (the Auto pattern, or [1.0] when Auto is missing
    too). *)
Lemma lookup_ldfs_absent (self : ChainLadder.t) (claim_type : string) :
  ChainLadder.patterns self !! claim_type = None ->
  ChainLadder.lookup_ldfs self claim_type
  = ChainLadder.lookup_ldfs self "Auto".
Proof.
  unfold ChainLadder.lookup_ldfs, Py.get. intros ->. simpl.
  by destruct (ChainLadder.patterns self !! "Auto").
Qed.

Lemma factor_absent (self : ChainLadder.t) (claim_type : string)
    (development_period : Z) :
  ChainLadder.patterns self !! claim_type = None ->
  ChainLadder.get_cumulative_factor self claim_type development_period
  = ChainLadder.get_cumulative_factor self "Auto" development_period.
Proof.
  intros Habs. unfold ChainLadder.get_cumulative_factor.
  by rewrite (lookup_ldfs_absent _ _ Habs).
Qed.

(** C9: a claim type absent from a table that holds "Auto" gets, from
    [estimate_ultimate], the very dict an "Auto" request gets. *)
Theorem unknown_type_same_as_auto (self : ChainLadder.t)
    (claim_type : string) (incurred : float) (development_period : Z) :
  ChainLadder.patterns self !! claim_type = None ->
  is_Some (ChainLadder.patterns self !! "Auto") ->
  ChainLadder.estimate_ultimate self incurred claim_type development_period
  = ChainLadder.estimate_ultimate self incurred "Auto" development_period.
Proof.
  intros Habs _. unfold ChainLadder.estimate_ultimate.
  by rewrite (factor_absent _ _ _ Habs).
Qed.

Lemma unknown_type_same_as_auto_witness :
  ChainLadder.estimate_ultimate demo_ladder 50000 "Marine" 0
  = ChainLadder.estimate_ultimate demo_ladder 50000 "Auto" 0.
Proof.
  apply (unknown_type_same_as_auto demo_ladder "Marine" 50000%float 0).
  - vm_compute; reflexivity.
  - exists auto_ldfs. vm_compute; reflexivity.
Defined.

(** C2, as the claim states it, fails: the product of the ten Auto factors
    is not within even 10% of 14.34, nor is the ultimate loss within 10% of
    716,800. *)
Lemma auto_example_quoted_figures_off :
  ~ (within_rel 0.1
       (ChainLadder.get_cumulative_factor demo_ladder "Auto" 0) 14.34
     = true
     \/ within_rel 0.1
          (ChainLadder.ultimate_loss
             (ChainLadder.estimate_ultimate demo_ladder 50000 "Auto" 0))
          716800
        = true).
Proof. vm_compute. intros [H | H]; discriminate H. Qed.

(** C2 (amended): for Auto, incurred 50000, period 0, the cumulative factor
    is the product of all ten Auto factors, 16.5742094133 (about 16.57), and
    the ultimate loss is 828710.470665 (about 828,710). *)
Theorem auto_example_end_to_end :
  ChainLadder.lookup_ldfs demo_ladder "Auto" = auto_ldfs
  /\ ChainLadder.get_cumulative_factor demo_ladder "Auto" 0
     = Py.prod auto_ldfs
  /\ ChainLadder.get_cumulative_factor demo_ladder "Auto" 0
     = 16.5742094133%float
  /\ within_rel 0.001
       (ChainLadder.get_cumulative_factor demo_ladder "Auto" 0) 16.57 = true
  /\ ChainLadder.ultimate_loss
       (ChainLadder.estimate_ultimate demo_ladder 50000 "Auto" 0)
     = 828710.470665%float
  /\ within_rel 0.000001
       (ChainLadder.ultimate_loss
          (ChainLadder.estimate_ultimate demo_ladder 50000 "Auto" 0))
       828710 = true.
Proof. repeat split; vm_compute; reflexivity. Qed.

(** ** Accrual orchestration *)

Section Accrual.

Variable float_pow : float -> float -> float.
Variable self : IFRS17Accrual.t.

(** The present value is the future value itself when no time remains, and
    the discount amount is always future value minus present value. *)
Lemma calculate_pv_discount_amount (d : Discounting.t) (fv years : float) :
  Discounting.discount_amount (Discounting.calculate_pv float_pow d fv years)
  = PrimFloat.sub fv
      (Discounting.present_value
         (Discounting.calculate_pv float_pow d fv years)).
Proof.
  unfold Discounting.calculate_pv.
  by destruct (PrimFloat.leb years 0).
Qed.

(** C1: the total accrual is the present value of the outstanding claims
    (ultimate loss minus paid, discounted over the years to settlement) plus
    the risk adjustment computed on the ultimate loss; in terms of the
    returned fields, it is [pv_outstanding] plus the risk adjustment, with
    the outstanding claims being ultimate loss minus paid. *)
Theorem total_accrual_identity (incurred paid : float) (claim_type : string)
    (development_period : Z) (years_to_settlement : float)
    (risk_level : string) :
  let r := IFRS17Accrual.calculate_accrual float_pow self incurred paid
             claim_type development_period years_to_settlement risk_level in
  let ultimate := ultimate_of self incurred claim_type development_period in
  IFRS17Accrual.total_accrual r
  = PrimFloat.add
      (Discounting.present_value
         (Discounting.calculate_pv float_pow (IFRS17Accrual.discounting self)
            (PrimFloat.sub ultimate paid) years_to_settlement))
      (RiskAdjustment.risk_adjustment
         (RiskAdjustment.calculate (IFRS17Accrual.risk_adjustment self)
            ultimate risk_level))
  /\ IFRS17Accrual.total_accrual r
     = PrimFloat.add (IFRS17Accrual.pv_outstanding r)
                     (IFRS17Accrual.risk_adjustment_amount r)
  /\ IFRS17Accrual.outstanding_claims r
     = PrimFloat.sub (IFRS17Accrual.ultimate_loss r) paid
  /\ IFRS17Accrual.ultimate_loss r = ultimate.
Proof.
  cbn zeta. unfold IFRS17Accrual.calculate_accrual, ultimate_of.
  cbn [IFRS17Accrual.total_accrual IFRS17Accrual.pv_outstanding
       IFRS17Accrual.risk_adjustment_amount IFRS17Accrual.outstanding_claims
       IFRS17Accrual.ultimate_loss].
  repeat split.
Qed.

(** C10: the reported discount amount is the discount on the ultimate
    loss: ultimate loss minus its present value. It is the
    [discount_amount] of the ultimate-loss discounting and does not depend
    on the amount paid, hence not on the outstanding claims. *)
Theorem discount_amount_is_on_ultimate (incurred paid : float)
    (claim_type : string) (development_period : Z)
    (years_to_settlement : float) (risk_level : string) :
  let r := IFRS17Accrual.calculate_accrual float_pow self incurred paid
             claim_type development_period years_to_settlement risk_level in
  IFRS17Accrual.discount_amount r
  = PrimFloat.sub (IFRS17Accrual.ultimate_loss r) (IFRS17Accrual.pv_ultimate r)
  /\ IFRS17Accrual.discount_amount r
     = Discounting.discount_amount
         (Discounting.calculate_pv float_pow (IFRS17Accrual.discounting self)
            (ultimate_of self incurred claim_type development_period)
            years_to_settlement)
  /\ forall paid' : float,
       IFRS17Accrual.discount_amount
         (IFRS17Accrual.calculate_accrual float_pow self incurred paid'
            claim_type development_period years_to_settlement risk_level)
       = IFRS17Accrual.discount_amount r.
Proof.
  cbn zeta. repeat split.
  unfold IFRS17Accrual.calculate_accrual; cbn [IFRS17Accrual.discount_amount
    IFRS17Accrual.ultimate_loss IFRS17Accrual.pv_ultimate].
  apply calculate_pv_discount_amount.
Qed.

End Accrual.

(** A fully developed Auto claim settled now: nothing is developed or
    discounted, so the accrual is outstanding claims plus 10% of the
    ultimate loss. *)
Example accrual_at_settlement (float_pow : float -> float -> float) :
  let r := IFRS17Accrual.calculate_accrual float_pow (demo_accrual 0.035)
             50000 15000 "Auto" 9 0 "Medium" in
  IFRS17Accrual.ultimate_loss r = 50000%float
  /\ IFRS17Accrual.outstanding_claims r = 35000%float
  /\ IFRS17Accrual.discount_amount r = 0%float
  /\ IFRS17Accrual.total_accrual r = 40000%float.
Proof. repeat split; vm_compute; reflexivity. Qed.

(** ** Bracket classifier *)

Section Classifier.

Variable format_2f : float -> string.

(** What [calculate_accrual_bracket] returns, in terms of its locals. *)
Lemma calculate_accrual_bracket_returns (claim_stage severity_bracket : string)
    (investigation_duration : Z) (ibnr_flag : string) :
  let st := Bracket.score claim_stage severity_bracket investigation_duration
              ibnr_flag in
  let r := Bracket.calculate_accrual_bracket format_2f claim_stage
             severity_bracket investigation_duration ibnr_flag in
  r.1.1 = Bracket.determine_bracket (Bracket.accrual_level st)
  /\ r.2 = Bracket.uncertainty_score st.
Proof. done. Qed.

Lemma determine_bracket_cases (s : Z) :
  (s <= 3 /\ Bracket.determine_bracket s = "Band A (Low Reserve)")
  \/ (4 <= s <= 5 /\ Bracket.determine_bracket s = "Band B (Moderate Reserve)")
  \/ (6 <= s <= 7 /\ Bracket.determine_bracket s = "Band C (Elevated Reserve)")
  \/ (8 <= s <= 9 /\ Bracket.determine_bracket s = "Band D (High Reserve)")
  \/ (10 <= s /\ Bracket.determine_bracket s = "Band E (Maximum Reserve)").
Proof.
  unfold Bracket.determine_bracket.
  destruct (Z.leb_spec s 3); [by left |].
  destruct (Z.leb_spec s 5); [right; left; split; [lia | done] |].
  destruct (Z.leb_spec s 7); [do 2 right; left; split; [lia | done] |].
  destruct (Z.leb_spec s 9); [do 3 right; left; split; [lia | done] |].
  do 4 right. split; [lia | done].
Qed.

(** C3: the bracket label is a function of the accumulated score alone, over
    five contiguous, exhaustive and disjoint integer ranges, with the
    transitions at 3/4, 5/6, 7/8 and 9/10. *)
Theorem bracket_ranges (claim_stage severity_bracket : string)
    (investigation_duration : Z) (ibnr_flag : string) (s : Z) :
  (Bracket.calculate_accrual_bracket format_2f claim_stage severity_bracket
     investigation_duration ibnr_flag).1.1
  = Bracket.determine_bracket
      (Bracket.accrual_level
         (Bracket.score claim_stage severity_bracket investigation_duration
            ibnr_flag))
  /\ (Bracket.determine_bracket s = "Band A (Low Reserve)" <-> s <= 3)
  /\ (Bracket.determine_bracket s = "Band B (Moderate Reserve)"
      <-> 4 <= s <= 5)
  /\ (Bracket.determine_bracket s = "Band C (Elevated Reserve)"
      <-> 6 <= s <= 7)
  /\ (Bracket.determine_bracket s = "Band D (High Reserve)" <-> 8 <= s <= 9)
  /\ (Bracket.determine_bracket s = "Band E (Maximum Reserve)" <-> 10 <= s)
  /\ Bracket.determine_bracket 3 = "Band A (Low Reserve)"
  /\ Bracket.determine_bracket 4 = "Band B (Moderate Reserve)"
  /\ Bracket.determine_bracket 5 = "Band B (Moderate Reserve)"
  /\ Bracket.determine_bracket 6 = "Band C (Elevated Reserve)"
  /\ Bracket.determine_bracket 7 = "Band C (Elevated Reserve)"
  /\ Bracket.determine_bracket 8 = "Band D (High Reserve)"
  /\ Bracket.determine_bracket 9 = "Band D (High Reserve)"
  /\ Bracket.determine_bracket 10 = "Band E (Maximum Reserve)"
  /\ Bracket.determine_bracket 11 = "Band E (Maximum Reserve)".
Proof.
  split; [done |].
  repeat match goal with |- _ /\ _ => split end; try reflexivity;
    destruct (determine_bracket_cases s)
      as [[? ->] | [[? ->] | [[? ->] | [[? ->] | [? ->]]]]];
    split; intros E; first [lia | discriminate E | reflexivity].
Qed.

(** The default form values: stage weight 2 plus severity weight 2 give
    Band B, with the stage-based uncertainty only. *)
Example default_form_values :
  Bracket.accrual_level
    (Bracket.score "Under Investigation" "Moderate" 3 "No") = 4
  /\ (Bracket.calculate_accrual_bracket format_2f "Under Investigation"
        "Moderate" 3 "No").1.1 = "Band B (Moderate Reserve)"
  /\ (Bracket.calculate_accrual_bracket format_2f "Under Investigation"
        "Moderate" 3 "No").2 = 0.15%float.
Proof. repeat split; vm_compute; reflexivity. Qed.

(** Unfolds the classifier's steps down to the conditions they test. *)
Ltac classifier_cases :=
  unfold Bracket.score, Bracket.after_ibnr, Bracket.before_ibnr,
    Bracket.severity_uncertainty, Bracket.stage_uncertainty,
    Bracket.ibnr_adjustment, Bracket.duration_adjustment,
    Bracket.severity_adjustment, Bracket.stage_adjustment;
  repeat match goal with
         | |- context [if ?c then _ else _] => destruct c
         end;
  cbn [Bracket.accrual_level Bracket.warnings Bracket.uncertainty_score
       Bracket.cap_uncertainty Bracket.add_uncertainty
       Bracket.append_warning Bracket.add_level Bracket.initial].

(** No input pushes the summed uncertainty above 0.95, so the cap at 1.0
    leaves it as it is. *)
Lemma uncertainty_bounds (claim_stage severity_bracket : string)
    (investigation_duration : Z) (ibnr_flag : string) :
  let u := Bracket.uncertainty_score
             (Bracket.score claim_stage severity_bracket
                investigation_duration ibnr_flag) in
  PrimFloat.leb 0 u = true /\ PrimFloat.leb u 0.95 = true.
Proof. cbn zeta. classifier_cases; vm_compute; done. Qed.

(** C5: whatever the stage, severity, duration and flag, the returned
    uncertainty score lies in the closed interval [0, 1]. *)
Theorem uncertainty_in_unit_interval (claim_stage severity_bracket : string)
    (investigation_duration : Z) (ibnr_flag : string) :
  let u := (Bracket.calculate_accrual_bracket format_2f claim_stage
              severity_bracket investigation_duration ibnr_flag).2 in
  PrimFloat.leb 0 u = true /\ PrimFloat.leb u 1 = true.
Proof.
  cbn zeta.
  destruct (calculate_accrual_bracket_returns claim_stage severity_bracket
              investigation_duration ibnr_flag) as [_ ->].
  classifier_cases; vm_compute; done.
Qed.

(** C4 (amended): for stage Reported, duration 40, flag Yes, severity
    Catastrophic the returned uncertainty score is 0.95, the sum
    0.25 + 0.30 + 0.20 + 0.20, which is below the cap of 1.0. *)
Theorem pathological_uncertainty_is_095 :
  let u := (Bracket.calculate_accrual_bracket format_2f "Reported"
              "Catastrophic" 40 "Yes").2 in
  u = 0.95%float
  /\ u = PrimFloat.add (PrimFloat.add (PrimFloat.add (PrimFloat.add 0 0.25)
                                          0.30) 0.20) 0.20
  /\ PrimFloat.ltb u 1 = true.
Proof.
  cbn zeta.
  destruct (calculate_accrual_bracket_returns "Reported" "Catastrophic" 40
              "Yes") as [_ ->].
  repeat split; vm_compute; reflexivity.
Qed.

(** The steps after the IBNR adjustment leave the accrual level alone. *)
Lemma after_ibnr_level (claim_stage severity_bracket : string)
    (st : Bracket.locals) :
  Bracket.accrual_level (Bracket.after_ibnr claim_stage severity_bracket st)
  = Bracket.accrual_level st.
Proof. classifier_cases; reflexivity. Qed.

(** The IBNR warning is none of the other three warnings, so the final list
    holds it as often as the IBNR adjustment appended it. *)
Lemma ibnr_warning_count (claim_stage severity_bracket : string)
    (investigation_duration : Z) (ibnr_flag : string) :
  count_occ String.string_dec
    (Bracket.warnings
       (Bracket.score claim_stage severity_bracket investigation_duration
          ibnr_flag))
    Bracket.ibnr_warning
  = if String.eqb ibnr_flag "Yes" then 1%nat else 0%nat.
Proof. classifier_cases; vm_compute; reflexivity. Qed.

(** C8: when the flag is set (the radio's "Yes"), the IBNR adjustment adds
    exactly 2 to the accrual level, appends exactly one IBNR warning and adds
    0.30 to the not yet capped uncertainty score; when it is not set, the
    adjustment changes nothing. The rest of the function does not look at the
    flag. *)
Theorem ibnr_flag_effect (claim_stage severity_bracket : string)
    (investigation_duration : Z) (ibnr_flag : string) :
  let st := Bracket.before_ibnr claim_stage severity_bracket
              investigation_duration in
  let st' := Bracket.ibnr_adjustment ibnr_flag st in
  let final := Bracket.score claim_stage severity_bracket
                 investigation_duration ibnr_flag in
  final = Bracket.after_ibnr claim_stage severity_bracket st'
  /\ (ibnr_flag = "Yes" ->
        Bracket.accrual_level st' = Bracket.accrual_level st + 2
        /\ Bracket.warnings st' = Bracket.warnings st ++ [Bracket.ibnr_warning]
        /\ Bracket.uncertainty_score st'
           = PrimFloat.add (Bracket.uncertainty_score st) 0.30
        /\ Bracket.accrual_level final = Bracket.accrual_level st + 2
        /\ count_occ String.string_dec (Bracket.warnings final)
             Bracket.ibnr_warning = 1%nat)
  /\ (ibnr_flag <> "Yes" ->
        st' = st
        /\ Bracket.accrual_level final = Bracket.accrual_level st
        /\ count_occ String.string_dec (Bracket.warnings final)
             Bracket.ibnr_warning = 0%nat).
Proof.
  cbn zeta. split; [reflexivity |]. split.
  - intros ->.
    rewrite ibnr_warning_count.
    unfold Bracket.score. rewrite after_ibnr_level.
    unfold Bracket.ibnr_adjustment. done.
  - intros Hno%String.eqb_neq.
    rewrite ibnr_warning_count.
    unfold Bracket.score. rewrite after_ibnr_level.
    unfold Bracket.ibnr_adjustment. rewrite Hno. done.
Qed.

End Classifier.

Lemma ibnr_flag_effect_witness :
  Bracket.accrual_level (Bracket.score "Reported" "Minor" 0 "Yes") = 4
  /\ Bracket.accrual_level (Bracket.score "Reported" "Minor" 0 "No") = 2.
Proof.
  split.
  - destruct (ibnr_flag_effect "Reported" "Minor" 0 "Yes")
      as (_ & Hyes & _).
    destruct (Hyes eq_refl) as (_ & _ & _ & -> & _). reflexivity.
  - destruct (ibnr_flag_effect "Reported" "Minor" 0 "No")
      as (_ & _ & Hno).
    destruct (Hno ltac:(discriminate)) as (_ & -> & _). reflexivity.
Defined.

(** C4, as the claim states it, fails: for that input the returned
    uncertainty score is not 1.0, whatever the float formatter. *)
Lemma pathological_uncertainty_not_one :
  ~ exists format_2f : float -> string,
      (Bracket.calculate_accrual_bracket format_2f "Reported" "Catastrophic"
         40 "Yes").2 = 1%float.
Proof.
  intros [format_2f H]. revert H.
  destruct (calculate_accrual_bracket_returns format_2f "Reported"
              "Catastrophic" 40 "Yes") as [_ ->].
  apply float_neq; vm_compute; reflexivity.
Qed.

(** * Further properties of the code *)

(** ** Exact facts of binary64 arithmetic

    These follow from the specification of the primitive operations
    against [SpecFloat]. *)

(** A finite float is a zero or a signed mantissa with an exponent. *)
Lemma finite_shape (x : float) :
  PrimFloat.is_finite x = true ->
  (exists s, FloatOps.Prim2SF x = SpecFloat.S754_zero s)
  \/ (exists s m e, FloatOps.Prim2SF x = SpecFloat.S754_finite s m e).
Proof.
  unfold PrimFloat.is_finite, PrimFloat.is_nan, PrimFloat.is_infinity.
  rewrite !FloatAxioms.eqb_spec, FloatAxioms.abs_spec.
  destruct (FloatOps.Prim2SF x) as [s | s | | s m e]; intros H.
  - left. eauto.
  - exfalso. destruct s; vm_compute in H; discriminate.
  - exfalso. vm_compute in H. discriminate.
  - right. eauto.
Qed.

(** A finite float minus itself is +0. *)
Lemma float_sub_self (x : float) :
  PrimFloat.is_finite x = true -> PrimFloat.sub x x = 0%float.
Proof.
  intros Hfin. apply FloatAxioms.Prim2SF_inj.
  rewrite FloatAxioms.sub_spec.
  change (FloatOps.Prim2SF 0) with (SpecFloat.S754_zero false).
  destruct (finite_shape x Hfin) as [[s ->] | (s & m & e & ->)].
  - now destruct s.
  - unfold FloatAxioms.SF64sub, SpecFloat.SFsub. cbv zeta.
    rewrite Z.min_id.
    unfold SpecFloat.shl_align.
    rewrite (Z.sub_diag e).
    cbn [fst]. now rewrite Z.sub_diag.
Qed.

(** An infinity or a NaN minus itself is NaN. *)
Lemma float_sub_self_not_finite (x : float) :
  PrimFloat.is_finite x = false -> PrimFloat.sub x x = PrimFloat.nan.
Proof.
  intros Hinf. apply FloatAxioms.Prim2SF_inj.
  rewrite FloatAxioms.sub_spec.
  change (FloatOps.Prim2SF PrimFloat.nan) with SpecFloat.S754_nan.
  revert Hinf.
  unfold PrimFloat.is_finite, PrimFloat.is_nan, PrimFloat.is_infinity.
  rewrite !FloatAxioms.eqb_spec, FloatAxioms.abs_spec.
  destruct (FloatOps.Prim2SF x) as [s | s | | s m e]; intros H.
  - destruct s; vm_compute in H; discriminate.
  - now destruct s.
  - reflexivity.
  - exfalso. revert H. unfold SpecFloat.SFeqb, SpecFloat.SFabs,
      SpecFloat.SFcompare.
    change (FloatOps.Prim2SF infinity) with (SpecFloat.S754_infinity false).
    rewrite Z.compare_refl, Pos.compare_cont_refl.
    destruct s; discriminate.
Qed.

(** Rounding [m * 2^52] at exponent [e - 52] gives back [m] at [e]. *)
Lemma round_times_one (s : bool) (m : positive) (e : Z) :
  SpecFloat.bounded FloatOps.prec FloatOps.emax m e = true ->
  SpecFloat.binary_round_aux FloatOps.prec FloatOps.emax s
    (Zpos (m * 4503599627370496)) (e + -52) SpecFloat.loc_Exact
  = SpecFloat.S754_finite s m e.
Proof.
  unfold SpecFloat.bounded, SpecFloat.canonical_mantissa.
  intros [Hcan Hmax]%andb_true_iff. apply Z.eqb_eq in Hcan.
  rewrite Pos.mul_comm.
  change (4503599627370496 * m)%positive with (Pos.iter xO m 52).
  assert (Hdig : SpecFloat.Zdigits2 (Z.pos (Pos.iter xO m 52))
                 = Z.pos (SpecFloat.digits2_pos m) + 52).
  { cbn. lia. }
  assert (Hshift : SpecFloat.fexp FloatOps.prec FloatOps.emax
                     (SpecFloat.Zdigits2 (Z.pos (Pos.iter xO m 52)) + (e + -52))
                   - (e + -52) = 52).
  { rewrite Hdig.
    replace (Z.pos (SpecFloat.digits2_pos m) + 52 + (e + -52))
      with (Z.pos (SpecFloat.digits2_pos m) + e) by lia.
    rewrite Hcan. lia. }
  unfold SpecFloat.binary_round_aux, SpecFloat.shr_fexp at 1.
  rewrite Hshift.
  change (SpecFloat.shr
            (SpecFloat.shr_record_of_loc (Z.pos (Pos.iter xO m 52))
               SpecFloat.loc_Exact) (e + -52) 52)
    with ({| SpecFloat.shr_m := Z.pos m; SpecFloat.shr_r := false;
             SpecFloat.shr_s := false |}, e + -52 + 52).
  cbn [SpecFloat.shr_m SpecFloat.loc_of_shr_record
       SpecFloat.round_nearest_even].
  replace (e + -52 + 52) with e by lia.
  unfold SpecFloat.shr_fexp. cbn [SpecFloat.Zdigits2].
  rewrite Hcan, Z.sub_diag.
  cbn [SpecFloat.shr SpecFloat.shr_record_of_loc SpecFloat.shr_m].
  now rewrite Hmax.
Qed.

(** Multiplying by 1.0 changes no float, NaN and infinities included. *)
Lemma float_mul_one (x : float) : PrimFloat.mul x 1 = x.
Proof.
  apply FloatAxioms.Prim2SF_inj. rewrite FloatAxioms.mul_spec.
  change (FloatOps.Prim2SF 1)
    with (SpecFloat.S754_finite false 4503599627370496 (-52)).
  pose proof (FloatAxioms.Prim2SF_valid x) as Hvalid.
  destruct (FloatOps.Prim2SF x) as [s | s | | s m e];
    unfold FloatAxioms.SF64mul, SpecFloat.SFmul.
  - now rewrite xorb_false_r.
  - now rewrite xorb_false_r.
  - reflexivity.
  - rewrite xorb_false_r. now apply round_times_one.
Qed.

(** ** Chain ladder: missing keys and the fixed tables *)

(** With neither the claim type nor "Auto" in the table, the pattern is
    the built-in [1.0] and the factor is 1.0 at every period, negative ones
    included. *)
Theorem factor_without_auto (self : ChainLadder.t) (claim_type : string)
    (development_period : Z) :
  ChainLadder.patterns self !! claim_type = None ->
  ChainLadder.patterns self !! "Auto" = None ->
  ChainLadder.lookup_ldfs self claim_type = [1%float]
  /\ ChainLadder.get_cumulative_factor self claim_type development_period
     = 1%float.
Proof.
  intros Hct Hauto.
  assert (Hl : ChainLadder.lookup_ldfs self claim_type = [1%float]).
  { unfold ChainLadder.lookup_ldfs, Py.get. by rewrite Hct, Hauto. }
  split; [done |].
  destruct (Z.le_gt_cases 0 development_period) as [Hge | Hlt].
  - apply factor_fully_developed. unfold last_index. rewrite Hl.
    simpl length. lia.
  - rewrite factor_not_developed.
    + rewrite Hl. unfold Py.slice_from.
      destruct (Z.ltb_spec development_period 0); [| lia].
      simpl length.
      replace (Z.max 0 (Z.of_nat 1 + development_period)) with 0 by lia.
      reflexivity.
    + unfold last_index. rewrite Hl. simpl length. lia.
Qed.

Lemma factor_without_auto_witness :
  ChainLadder.get_cumulative_factor {| ChainLadder.patterns := ∅ |}
    "Marine" (-4) = 1%float.
Proof.
  apply (factor_without_auto {| ChainLadder.patterns := ∅ |} "Marine" (-4));
    reflexivity.
Defined.

(** The factor sees the period only through its position in the window
    from [-len] to [len - 1]. *)
Lemma factor_window (self : ChainLadder.t) (claim_type : string)
    (development_period : Z) :
  let len := Z.of_nat (length (ChainLadder.lookup_ldfs self claim_type)) in
  ChainLadder.get_cumulative_factor self claim_type development_period
  = ChainLadder.get_cumulative_factor self claim_type
      (Z.max (- len) (Z.min development_period (len - 1))).
Proof.
  cbn zeta.
  set (l := ChainLadder.lookup_ldfs self claim_type).
  assert (Hli : last_index self claim_type = Z.of_nat (length l) - 1)
    by reflexivity.
  destruct (Z.le_gt_cases (Z.of_nat (length l) - 1) development_period)
    as [Hge | Hlt].
  { rewrite !factor_fully_developed; [done | lia | lia]. }
  destruct (Z.le_gt_cases (- Z.of_nat (length l)) development_period)
    as [Hin | Hout].
  { by rewrite Z.min_l, Z.max_r by lia. }
  rewrite Z.min_l, Z.max_l by lia.
  destruct (length l) as [| n] eqn:Hlen.
  { rewrite (factor_fully_developed _ _ (- Z.of_nat 0)) by lia.
    rewrite factor_not_developed by lia.
    fold l. apply length_zero_iff_nil in Hlen. rewrite Hlen.
    unfold Py.slice_from.
    by destruct (development_period <? 0); rewrite drop_nil. }
  rewrite !factor_not_developed by lia. fold l.
  unfold Py.slice_from.
  destruct (Z.ltb_spec development_period 0); [| lia].
  destruct (Z.ltb_spec (- Z.of_nat (S n)) 0); [| lia].
  rewrite Hlen.
  replace (Z.max 0 (Z.of_nat (S n) + development_period)) with 0 by lia.
  replace (Z.max 0 (Z.of_nat (S n) + - Z.of_nat (S n))) with 0 by lia.
  done.
Qed.

(** Over the fixed table every claim type resolves to one of the five
    listed patterns: its own, or Auto's. *)
Lemma fixed_table_keys (claim_type : string) :
  exists key : string,
    key ∈ ["Auto"; "Property"; "Liability"; "Health"; "Workers Comp"]
    /\ ChainLadder.lookup_ldfs demo_ladder claim_type
       = ChainLadder.lookup_ldfs demo_ladder key
    /\ forall development_period : Z,
         ChainLadder.get_cumulative_factor demo_ladder claim_type
           development_period
         = ChainLadder.get_cumulative_factor demo_ladder key
             development_period.
Proof.
  destruct (decide (claim_type
                    ∈ ["Auto"; "Property"; "Liability"; "Health";
                       "Workers Comp"])) as [Hin | Hout].
  - exists claim_type. done.
  - exists "Auto". split; [set_solver |].
    assert (Habs : ChainLadder.patterns demo_ladder !! claim_type = None).
    { apply not_elem_of_list_to_map_1. exact Hout. }
    split; [by apply lookup_ldfs_absent |].
    intros dp. by apply factor_absent.
Qed.

Lemma fixed_table_length (claim_type : string) :
  length (ChainLadder.lookup_ldfs demo_ladder claim_type) = 10%nat.
Proof.
  destruct (fixed_table_keys claim_type) as (key & Hkey & -> & _).
  repeat (apply elem_of_cons in Hkey as [-> | Hkey]; [reflexivity |]).
  by apply elem_of_nil in Hkey.
Qed.

(** Splits a period of the fixed tables' window into its twenty values. *)
Ltac window_values p :=
  let H := fresh in
  assert (H : p = -10 \/ p = -9 \/ p = -8 \/ p = -7 \/ p = -6 \/ p = -5
              \/ p = -4 \/ p = -3 \/ p = -2 \/ p = -1 \/ p = 0 \/ p = 1
              \/ p = 2 \/ p = 3 \/ p = 4 \/ p = 5 \/ p = 6 \/ p = 7
              \/ p = 8 \/ p = 9) by lia;
  repeat destruct H as [-> | H]; [.. | subst p].

(** Every pattern of the fixed table has ten factors, so every claim type,
    known or not, is fully developed from period 9 on. *)
Theorem fixed_tables_developed_from_9 (claim_type : string)
    (development_period : Z) :
  9 <= development_period ->
  ChainLadder.get_cumulative_factor demo_ladder claim_type development_period
  = 1%float.
Proof.
  intros Hge. apply factor_fully_developed.
  unfold last_index. rewrite fixed_table_length. lia.
Qed.

Lemma fixed_tables_developed_from_9_witness :
  ChainLadder.get_cumulative_factor demo_ladder "Workers Comp" 9 = 1%float.
Proof.
  apply (fixed_tables_developed_from_9 "Workers Comp" 9). lia.
Defined.

(** Over the fixed table the factor never falls below 1.0 and never
    exceeds 157.5, for every claim type and every integer period. *)
Theorem fixed_tables_factor_bounds (claim_type : string)
    (development_period : Z) :
  let f := ChainLadder.get_cumulative_factor demo_ladder claim_type
             development_period in
  PrimFloat.leb 1 f = true /\ PrimFloat.leb f 157.5 = true.
Proof.
  cbn zeta.
  destruct (fixed_table_keys claim_type) as (key & Hkey & _ & ->).
  rewrite factor_window.
  assert (Hlen := fixed_table_length key). cbn zeta. rewrite Hlen.
  set (p := Z.max _ _).
  assert (-10 <= p <= 9) by lia. clearbody p. clear Hlen.
  repeat (apply elem_of_cons in Hkey as [-> | Hkey];
          [window_values p; vm_compute; done |]).
  by apply elem_of_nil in Hkey.
Qed.

(** Over the fixed table, more development never raises the factor: for
    periods that are not negative, a later period's factor is at most an
    earlier period's. *)
Theorem fixed_tables_factor_antitone (claim_type : string) (p q : Z) :
  0 <= p -> p <= q ->
  PrimFloat.leb
    (ChainLadder.get_cumulative_factor demo_ladder claim_type q)
    (ChainLadder.get_cumulative_factor demo_ladder claim_type p) = true.
Proof.
  intros Hp Hpq.
  destruct (fixed_table_keys claim_type) as (key & Hkey & _ & Hf).
  rewrite !Hf. clear Hf.
  rewrite (factor_window _ _ p), (factor_window _ _ q).
  assert (Hlen := fixed_table_length key). cbn zeta. rewrite Hlen.
  set (p' := Z.max _ (Z.min p _)). set (q' := Z.max _ (Z.min q _)).
  assert (0 <= p' <= 9 /\ p' <= q' <= 9) as [Hp' Hq'] by lia.
  clearbody p' q'. clear Hlen Hp Hpq.
  repeat (apply elem_of_cons in Hkey as [-> | Hkey];
          [window_values p'; try lia; window_values q'; try lia;
           vm_compute; reflexivity |]).
  by apply elem_of_nil in Hkey.
Qed.

Lemma fixed_tables_factor_antitone_witness :
  PrimFloat.leb
    (ChainLadder.get_cumulative_factor demo_ladder "Health" 5)
    (ChainLadder.get_cumulative_factor demo_ladder "Health" 2) = true.
Proof. apply (fixed_tables_factor_antitone "Health" 2 5); lia. Defined.

(** A fully developed claim is returned as it came in: factor 1.0, the
    ultimate loss equal to the incurred loss for every float, and an IBNR of
    zero when the incurred loss is finite. *)
Theorem fully_developed_estimate (self : ChainLadder.t) (incurred : float)
    (claim_type : string) (development_period : Z) :
  Z.of_nat (length (ChainLadder.lookup_ldfs self claim_type)) - 1
    <= development_period ->
  let est := ChainLadder.estimate_ultimate self incurred claim_type
               development_period in
  ChainLadder.cumulative_factor est = 1%float
  /\ ChainLadder.ultimate_loss est = incurred
  /\ (PrimFloat.is_finite incurred = true -> ChainLadder.ibnr est = 0%float).
Proof.
  intros Hge. cbn zeta. unfold ChainLadder.estimate_ultimate.
  cbn [ChainLadder.cumulative_factor ChainLadder.ultimate_loss
       ChainLadder.ibnr].
  rewrite factor_fully_developed by exact Hge.
  rewrite float_mul_one.
  repeat split. apply float_sub_self.
Qed.

Lemma fully_developed_estimate_witness :
  ChainLadder.ultimate_loss
    (ChainLadder.estimate_ultimate demo_ladder 50000 "Liability" 9)
  = 50000%float.
Proof.
  apply (fully_developed_estimate demo_ladder 50000 "Liability" 9).
  vm_compute. discriminate.
Defined.

(** ** Risk adjustment and the accrual pipeline: fallbacks and settlement *)

(** A risk level missing from the table is charged the literal 0.10,
    whatever the table holds (its "Medium" entry is not consulted), and the
    level is echoed as given. *)
Theorem unknown_risk_level_factor (self : RiskAdjustment.t)
    (ultimate_loss : float) (risk_level : string) :
  RiskAdjustment.factors self !! risk_level = None ->
  let r := RiskAdjustment.calculate self ultimate_loss risk_level in
  RiskAdjustment.risk_factor r = 0.10%float
  /\ RiskAdjustment.risk_adjustment r = PrimFloat.mul ultimate_loss 0.10
  /\ RiskAdjustment.risk_level r = risk_level.
Proof.
  intros Habs. cbn zeta. unfold RiskAdjustment.calculate, Py.get.
  rewrite Habs. done.
Qed.

Lemma unknown_risk_level_factor_witness :
  let self := {| RiskAdjustment.factors := {[ "Medium" := 0.15%float ]} |} in
  RiskAdjustment.risk_factor (RiskAdjustment.calculate self 1000 "Extreme")
  = 0.10%float
  /\ RiskAdjustment.risk_factor (RiskAdjustment.calculate self 1000 "Medium")
     = 0.15%float.
Proof.
  split; [| reflexivity].
  apply (unknown_risk_level_factor
           {| RiskAdjustment.factors := {[ "Medium" := 0.15%float ]} |}
           1000%float "Extreme").
  reflexivity.
Defined.


(** At or past maturity ([years <= 0]) [calculate_pv] does not call [pow]:
    the factor is 1.0 and the present value is the future value, at any
    rate. The discount amount is then 0 for a finite future value and NaN
    for an infinite or NaN one. *)
Theorem pv_at_maturity (float_pow : float -> float -> float)
    (self : Discounting.t) (future_value years : float) :
  PrimFloat.leb years 0 = true ->
  let r := Discounting.calculate_pv float_pow self future_value years in
  Discounting.discount_factor r = 1%float
  /\ Discounting.present_value r = future_value
  /\ Discounting.discount_amount r
     = if PrimFloat.is_finite future_value then 0%float else PrimFloat.nan.
Proof.
  intros Hle. cbn zeta. unfold Discounting.calculate_pv. rewrite Hle.
  cbn [Discounting.discount_factor Discounting.present_value
       Discounting.discount_amount].
  repeat split.
  destruct (PrimFloat.is_finite future_value) eqn:Hfin.
  - by apply float_sub_self.
  - by apply float_sub_self_not_finite.
Qed.

Lemma pv_at_maturity_witness :
  Discounting.discount_amount
    (Discounting.calculate_pv (fun _ _ => 0%float)
       {| Discounting.rate := 0.035 |} 1000 (-2))
  = 0%float.
Proof.
  apply (pv_at_maturity (fun _ _ => 0%float) {| Discounting.rate := 0.035 |}
           1000 (-2) eq_refl).
Defined.

Section Pipeline.

Variable float_pow : float -> float -> float.

(** At or past settlement ([years_to_settlement <= 0]) nothing is
    discounted: both present values are the undiscounted amounts, the total
    accrual is outstanding claims plus risk adjustment, and the whole result
    is the same under any discount rate and any [pow]. *)
Theorem no_discount_at_settlement (self : IFRS17Accrual.t)
    (incurred paid : float) (claim_type : string) (development_period : Z)
    (years_to_settlement : float) (risk_level : string) :
  PrimFloat.leb years_to_settlement 0 = true ->
  let r := IFRS17Accrual.calculate_accrual float_pow self incurred paid
             claim_type development_period years_to_settlement risk_level in
  IFRS17Accrual.pv_ultimate r = IFRS17Accrual.ultimate_loss r
  /\ IFRS17Accrual.pv_outstanding r = IFRS17Accrual.outstanding_claims r
  /\ IFRS17Accrual.total_accrual r
     = PrimFloat.add (IFRS17Accrual.outstanding_claims r)
                     (IFRS17Accrual.risk_adjustment_amount r)
  /\ (PrimFloat.is_finite (IFRS17Accrual.ultimate_loss r) = true ->
      IFRS17Accrual.discount_amount r = 0%float)
  /\ forall (other_pow : float -> float -> float) (other : Discounting.t),
       IFRS17Accrual.calculate_accrual other_pow
         {| IFRS17Accrual.chain_ladder := IFRS17Accrual.chain_ladder self;
            IFRS17Accrual.risk_adjustment :=
              IFRS17Accrual.risk_adjustment self;
            IFRS17Accrual.discounting := other |}
         incurred paid claim_type development_period years_to_settlement
         risk_level
       = r.
Proof.
  intros Hle. cbn zeta.
  unfold IFRS17Accrual.calculate_accrual, Discounting.calculate_pv.
  rewrite Hle.
  cbn [IFRS17Accrual.pv_ultimate IFRS17Accrual.ultimate_loss
       IFRS17Accrual.pv_outstanding IFRS17Accrual.outstanding_claims
       IFRS17Accrual.total_accrual IFRS17Accrual.risk_adjustment_amount
       IFRS17Accrual.discount_amount Discounting.present_value
       Discounting.discount_amount].
  repeat split. apply float_sub_self.
Qed.

(** A claim type missing from the table goes through the whole pipeline
    as "Auto" does: the accrual dicts are equal. *)
Theorem accrual_unknown_type_as_auto (self : IFRS17Accrual.t)
    (incurred paid : float) (claim_type : string) (development_period : Z)
    (years_to_settlement : float) (risk_level : string) :
  ChainLadder.patterns (IFRS17Accrual.chain_ladder self) !! claim_type
  = None ->
  IFRS17Accrual.calculate_accrual float_pow self incurred paid claim_type
    development_period years_to_settlement risk_level
  = IFRS17Accrual.calculate_accrual float_pow self incurred paid "Auto"
      development_period years_to_settlement risk_level.
Proof.
  intros Habs. unfold IFRS17Accrual.calculate_accrual,
    ChainLadder.estimate_ultimate.
  by rewrite (factor_absent _ _ _ Habs).
Qed.


(** A fully developed claim at or past settlement: the ultimate loss and
    its present value are the incurred loss, the outstanding claims are
    incurred minus paid, and the total accrual is that difference plus the
    risk factor's share of the incurred loss. *)
Theorem settled_developed_claim (self : IFRS17Accrual.t)
    (incurred paid : float) (claim_type : string) (development_period : Z)
    (years_to_settlement : float) (risk_level : string) :
  Z.of_nat (length (ChainLadder.lookup_ldfs (IFRS17Accrual.chain_ladder self)
                      claim_type)) - 1
    <= development_period ->
  PrimFloat.leb years_to_settlement 0 = true ->
  let r := IFRS17Accrual.calculate_accrual float_pow self incurred paid
             claim_type development_period years_to_settlement risk_level in
  IFRS17Accrual.ultimate_loss r = incurred
  /\ IFRS17Accrual.pv_ultimate r = incurred
  /\ IFRS17Accrual.outstanding_claims r = PrimFloat.sub incurred paid
  /\ IFRS17Accrual.total_accrual r
     = PrimFloat.add (PrimFloat.sub incurred paid)
         (PrimFloat.mul incurred
            (Py.get (RiskAdjustment.factors
                       (IFRS17Accrual.risk_adjustment self))
                    risk_level 0.10%float)).
Proof.
  intros Hdev Hle. cbn zeta.
  unfold IFRS17Accrual.calculate_accrual, Discounting.calculate_pv,
    ChainLadder.estimate_ultimate, RiskAdjustment.calculate.
  rewrite Hle.
  cbn [ChainLadder.ultimate_loss IFRS17Accrual.ultimate_loss
       IFRS17Accrual.pv_ultimate IFRS17Accrual.outstanding_claims
       IFRS17Accrual.total_accrual Discounting.present_value
       RiskAdjustment.risk_adjustment].
  rewrite factor_fully_developed by exact Hdev.
  rewrite float_mul_one. done.
Qed.

End Pipeline.

Lemma no_discount_at_settlement_witness :
  let r := IFRS17Accrual.calculate_accrual (fun _ _ => 0%float)
             (demo_accrual 0.035) 50000 60000 "Auto" 9 0 "High" in
  IFRS17Accrual.pv_outstanding r = (-10000)%float
  /\ IFRS17Accrual.total_accrual r = 0%float.
Proof.
  pose proof (no_discount_at_settlement (fun _ _ => 0%float)
                (demo_accrual 0.035) 50000 60000 "Auto" 9 0 "High" eq_refl)
    as H.
  cbn zeta in *. destruct H as (_ & H1 & H2 & _).
  split; [rewrite H1 | rewrite H2]; vm_compute; reflexivity.
Defined.

Lemma settled_developed_claim_witness :
  IFRS17Accrual.total_accrual
    (IFRS17Accrual.calculate_accrual (fun _ _ => 0%float)
       (demo_accrual 0.035) 50000 15000 "Auto" 9 0 "Medium")
  = 40000%float.
Proof.
  pose proof (settled_developed_claim (fun _ _ => 0%float)
                (demo_accrual 0.035) 50000 15000 "Auto" 9 0 "Medium") as H.
  cbn zeta in H. destruct H as (_ & _ & _ & ->).
  - vm_compute. discriminate.
  - reflexivity.
  - vm_compute. reflexivity.
Defined.

Lemma accrual_unknown_type_as_auto_witness :
  IFRS17Accrual.calculate_accrual (fun _ _ => 0%float) (demo_accrual 0.035)
    50000 15000 "Marine" 3 0 "Low"
  = IFRS17Accrual.calculate_accrual (fun _ _ => 0%float) (demo_accrual 0.035)
      50000 15000 "Auto" 3 0 "Low".
Proof.
  apply (accrual_unknown_type_as_auto (fun _ _ => 0%float)
           (demo_accrual 0.035) 50000 15000 "Marine" 3 0 "Low").
  vm_compute; reflexivity.
Defined.


(** ** The helpers of [app_old.py] against the classes *)

Lemma old_ultimate_loss_unfold (incurred_loss : float) (claim_type : string)
    (months_since_occurrence : Z) :
  AppOld.calculate_ultimate_loss incurred_loss claim_type
    months_since_occurrence
  = PrimFloat.mul incurred_loss
      (ChainLadder.get_cumulative_factor demo_ladder claim_type
         (months_since_occurrence / 12)).
Proof.
  unfold AppOld.calculate_ultimate_loss,
    ChainLadder.get_cumulative_factor, ChainLadder.lookup_ldfs.
  cbn [ChainLadder.patterns demo_ladder].
  replace (LDF_PATTERNS !!! "Auto") with (Py.get LDF_PATTERNS "Auto" [1%float])
    by (vm_compute; reflexivity).
  reflexivity.
Qed.

(** [calculate_ultimate_loss] is the class's ultimate loss over the fixed
    table at period [months // 12], for every claim type and every number of
    months; [calculate_risk_adjustment] is the class's risk adjustment over
    the fixed factors. *)
Theorem old_helpers_agree_with_classes (amount : float) (key : string)
    (months_since_occurrence : Z) :
  AppOld.calculate_ultimate_loss amount key months_since_occurrence
  = ChainLadder.ultimate_loss
      (ChainLadder.estimate_ultimate demo_ladder amount key
         (months_since_occurrence / 12))
  /\ AppOld.calculate_risk_adjustment amount key
     = RiskAdjustment.risk_adjustment
         (RiskAdjustment.calculate demo_risk amount key).
Proof. split; [apply old_ultimate_loss_unfold | reflexivity]. Qed.

(** From 108 months on, [calculate_ultimate_loss] returns the incurred
    loss unchanged, for every claim type, known or not, and every float. *)
Theorem old_ultimate_loss_after_108_months (incurred_loss : float)
    (claim_type : string) (months_since_occurrence : Z) :
  108 <= months_since_occurrence ->
  AppOld.calculate_ultimate_loss incurred_loss claim_type
    months_since_occurrence
  = incurred_loss.
Proof.
  intros Hm. rewrite old_ultimate_loss_unfold.
  rewrite factor_fully_developed; [apply float_mul_one |].
  unfold last_index. rewrite fixed_table_length.
  assert (9 <= months_since_occurrence / 12)
    by (apply Z.div_le_lower_bound; lia).
  lia.
Qed.

Lemma old_ultimate_loss_after_108_months_witness :
  AppOld.calculate_ultimate_loss 50000 "Liability" 120 = 50000%float.
Proof.
  apply (old_ultimate_loss_after_108_months 50000 "Liability" 120). lia.
Defined.

(** [calculate_discount] has no branch for settled claims; whenever the
    years to settlement are positive it returns the present value and the
    discount amount of the class's [calculate_pv] at the same rate. *)
Theorem old_discount_agrees_when_time_remains
    (float_pow : float -> float -> float) (int_truediv : Z -> Z -> float)
    (ultimate_loss : float) (months_to_settlement : Z)
    (discount_rate : float) :
  PrimFloat.leb (int_truediv months_to_settlement 12) 0 = false ->
  let r := Discounting.calculate_pv float_pow
             {| Discounting.rate := discount_rate |} ultimate_loss
             (int_truediv months_to_settlement 12) in
  AppOld.calculate_discount float_pow int_truediv ultimate_loss
    months_to_settlement discount_rate
  = (Discounting.present_value r, Discounting.discount_amount r).
Proof.
  intros Hpos. cbn zeta.
  unfold AppOld.calculate_discount, Discounting.calculate_pv.
  rewrite Hpos. reflexivity.
Qed.

Lemma old_discount_agrees_when_time_remains_witness :
  let pow := fun _ _ : float => 0.9335107%float in
  let div := fun _ _ : Z => 2%float in
  AppOld.calculate_discount pow div 1000 24 0.035
  = (933.5107%float, PrimFloat.sub 1000 933.5107).
Proof.
  cbn zeta.
  rewrite (old_discount_agrees_when_time_remains
             (fun _ _ => 0.9335107%float) (fun _ _ => 2%float)
             1000 24 0.035 eq_refl).
  vm_compute. reflexivity.
Defined.

(** ** Bracket classifier: ranges, thresholds and warnings *)

(** Unfolds the classifier down to the conditions it tests and splits on
    each of them. *)
Ltac split_conditions :=
  unfold uncapped_score, Bracket.score, Bracket.after_ibnr,
    Bracket.before_ibnr, Bracket.severity_uncertainty,
    Bracket.stage_uncertainty, Bracket.ibnr_adjustment,
    Bracket.duration_adjustment, Bracket.severity_adjustment,
    Bracket.stage_adjustment;
  repeat match goal with
         | |- context [if ?c then _ else _] => destruct c
         end;
  cbn [Bracket.accrual_level Bracket.warnings Bracket.uncertainty_score
       Bracket.cap_uncertainty Bracket.add_uncertainty
       Bracket.append_warning Bracket.add_level Bracket.initial].

Lemma stage_weight_range (claim_stage : string) :
  1 <= Py.get Bracket.stage_weights claim_stage 1 <= 5.
Proof.
  destruct (decide (claim_stage
                    ∈ ["Reported"; "Under Investigation"; "Evaluated";
                       "Settlement Negotiation"; "Closed"])) as [Hin | Hout].
  - repeat (apply elem_of_cons in Hin as [-> | Hin];
            [vm_compute; split; discriminate |]).
    by apply elem_of_nil in Hin.
  - unfold Py.get, Bracket.stage_weights.
    rewrite not_elem_of_list_to_map_1 by exact Hout. simpl. lia.
Qed.

Lemma severity_weight_range (severity_bracket : string) :
  1 <= Py.get Bracket.severity_weights severity_bracket 1 <= 4.
Proof.
  destruct (decide (severity_bracket
                    ∈ ["Minor"; "Moderate"; "Severe"; "Catastrophic"]))
    as [Hin | Hout].
  - repeat (apply elem_of_cons in Hin as [-> | Hin];
            [vm_compute; split; discriminate |]).
    by apply elem_of_nil in Hin.
  - unfold Py.get, Bracket.severity_weights.
    rewrite not_elem_of_list_to_map_1 by exact Hout. simpl. lia.
Qed.

(** The accrual level is the stage weight plus the severity weight plus
    0, 1 or 2 for the investigation and 0 or 2 for the flag; it always lies
    between 2 and 13, whatever strings and numbers are passed. *)
Theorem accrual_level_range (claim_stage severity_bracket : string)
    (investigation_duration : Z) (ibnr_flag : string) :
  let level := Bracket.accrual_level
                 (Bracket.score claim_stage severity_bracket
                    investigation_duration ibnr_flag) in
  level
  = Py.get Bracket.stage_weights claim_stage 1
    + Py.get Bracket.severity_weights severity_bracket 1
    + (if 12 <? investigation_duration then 2
       else if 6 <? investigation_duration then 1 else 0)
    + (if String.eqb ibnr_flag "Yes" then 2 else 0)
  /\ 2 <= level <= 13.
Proof.
  cbn zeta.
  pose proof (stage_weight_range claim_stage).
  pose proof (severity_weight_range severity_bracket).
  split_conditions; lia.
Qed.

(** The investigation duration acts through three bands only (up to 6,
    7 to 12, more than 12 months): two durations of one band give the same
    locals, and a longer investigation never lowers the accrual level. *)
Theorem duration_bands (claim_stage severity_bracket : string)
    (d d' : Z) (ibnr_flag : string) :
  d <= d' ->
  Bracket.accrual_level (Bracket.score claim_stage severity_bracket d ibnr_flag)
  <= Bracket.accrual_level
       (Bracket.score claim_stage severity_bracket d' ibnr_flag)
  /\ (d' <= 6 \/ (6 < d /\ d' <= 12) \/ 12 < d ->
      Bracket.score claim_stage severity_bracket d ibnr_flag
      = Bracket.score claim_stage severity_bracket d' ibnr_flag).
Proof.
  intros Hle. unfold Bracket.score, Bracket.before_ibnr,
    Bracket.duration_adjustment.
  destruct (Z.ltb_spec 12 d), (Z.ltb_spec 6 d), (Z.ltb_spec 12 d'),
    (Z.ltb_spec 6 d'); try lia;
    (split; [rewrite !after_ibnr_level;
             unfold Bracket.ibnr_adjustment;
             destruct (String.eqb ibnr_flag "Yes");
             cbn [Bracket.accrual_level Bracket.add_uncertainty
                  Bracket.append_warning Bracket.add_level]; lia
            | intros; first [reflexivity | lia]]).
Qed.

Lemma duration_bands_witness :
  Bracket.score "Evaluated" "Severe" 7 "No"
  = Bracket.score "Evaluated" "Severe" 12 "No".
Proof.
  apply (duration_bands "Evaluated" "Severe" 7 12 "No"); lia.
Defined.

(** A severity the table does not know is scored exactly as "Minor". A
    stage the table does not know gets the level, the warnings and the
    bracket of "Reported", but not its uncertainty increment: its
    uncertainty is that of "Closed". *)
Theorem unknown_stage_and_severity (claim_stage severity_bracket : string)
    (investigation_duration : Z) (ibnr_flag : string) :
  (severity_bracket ∉ ["Minor"; "Moderate"; "Severe"; "Catastrophic"] ->
   Bracket.score claim_stage severity_bracket investigation_duration ibnr_flag
   = Bracket.score claim_stage "Minor" investigation_duration ibnr_flag)
  /\ (claim_stage
       ∉ ["Reported"; "Under Investigation"; "Evaluated";
          "Settlement Negotiation"; "Closed"] ->
      let st := Bracket.score claim_stage severity_bracket
                  investigation_duration ibnr_flag in
      let reported := Bracket.score "Reported" severity_bracket
                        investigation_duration ibnr_flag in
      let closed := Bracket.score "Closed" severity_bracket
                      investigation_duration ibnr_flag in
      Bracket.accrual_level st = Bracket.accrual_level reported
      /\ Bracket.warnings st = Bracket.warnings reported
      /\ Bracket.determine_bracket (Bracket.accrual_level st)
         = Bracket.determine_bracket (Bracket.accrual_level reported)
      /\ Bracket.uncertainty_score st = Bracket.uncertainty_score closed).
Proof.
  split.
  - intros Hout.
    assert (Hw : Py.get Bracket.severity_weights severity_bracket 1 = 1).
    { unfold Py.get, Bracket.severity_weights.
      by rewrite not_elem_of_list_to_map_1 by exact Hout. }
    assert (Hc : String.eqb severity_bracket "Catastrophic" = false).
    { apply String.eqb_neq. intros ->. apply Hout. set_solver. }
    unfold Bracket.score, Bracket.after_ibnr, Bracket.before_ibnr,
      Bracket.severity_uncertainty, Bracket.severity_adjustment.
    rewrite Hw, Hc. reflexivity.
  - intros Hout.
    assert (Hw : Py.get Bracket.stage_weights claim_stage 1 = 1).
    { unfold Py.get, Bracket.stage_weights.
      by rewrite not_elem_of_list_to_map_1 by exact Hout. }
    assert (Hr : String.eqb claim_stage "Reported" = false).
    { apply String.eqb_neq. intros ->. apply Hout. set_solver. }
    assert (Hu : String.eqb claim_stage "Under Investigation" = false).
    { apply String.eqb_neq. intros ->. apply Hout. set_solver. }
    cbn zeta.
    unfold Bracket.score, Bracket.after_ibnr, Bracket.before_ibnr,
      Bracket.stage_uncertainty, Bracket.stage_adjustment.
    rewrite Hw, Hr, Hu.
    replace (Py.get Bracket.stage_weights "Reported" 1) with 1
      by (vm_compute; reflexivity).
    assert (Hlvl : forall a b,
              Bracket.accrual_level
                (Bracket.cap_uncertainty
                   (Bracket.severity_uncertainty a b))
              = Bracket.accrual_level b).
    { intros a b. unfold Bracket.severity_uncertainty.
      by destruct (String.eqb a "Catastrophic"). }
    rewrite !Hlvl.
    unfold Bracket.severity_uncertainty, Bracket.ibnr_adjustment,
      Bracket.duration_adjustment, Bracket.severity_adjustment.
    simpl String.eqb.
    repeat match goal with
           | |- context [if ?c then _ else _] => destruct c
           end; repeat split.
Qed.

Lemma unknown_stage_and_severity_witness :
  Bracket.score "Reopened" "Critical" 3 "No"
  = Bracket.score "Reopened" "Minor" 3 "No"
  /\ Bracket.accrual_level (Bracket.score "Reopened" "Critical" 3 "No")
     = Bracket.accrual_level (Bracket.score "Reported" "Critical" 3 "No").
Proof.
  destruct (unknown_stage_and_severity "Reopened" "Critical" 3 "No")
    as [Hsev Hstage].
  split.
  - apply Hsev. apply (bool_decide_unpack _). vm_compute. exact I.
  - apply Hstage. apply (bool_decide_unpack _). vm_compute. exact I.
Defined.

(** Settles a membership in a list of the four warnings by evaluation. *)
Ltac settle_membership H :=
  first
    [ lia
    | assumption
    | contradiction
    | apply (bool_decide_unpack _); vm_compute; exact I
    | apply (bool_decide_pack _) in H; vm_compute in H; destruct H ].

(** The warnings come in a fixed order (investigation, IBNR, catastrophic),
    each at most once and never more than three; each one is present exactly
    under its own condition. *)
Theorem warnings_order_and_conditions (claim_stage severity_bracket : string)
    (investigation_duration : Z) (ibnr_flag : string) :
  let ws := Bracket.warnings
              (Bracket.score claim_stage severity_bracket
                 investigation_duration ibnr_flag) in
  ws `sublist_of` [Bracket.extended_investigation_warning;
                   Bracket.moderate_investigation_warning;
                   Bracket.ibnr_warning; Bracket.catastrophic_warning]
  /\ (length ws <= 3)%nat
  /\ (Bracket.extended_investigation_warning ∈ ws
      <-> 12 < investigation_duration)
  /\ (Bracket.moderate_investigation_warning ∈ ws
      <-> 6 < investigation_duration <= 12)
  /\ (Bracket.ibnr_warning ∈ ws <-> ibnr_flag = "Yes")
  /\ (Bracket.catastrophic_warning ∈ ws
      <-> severity_bracket = "Catastrophic").
Proof.
  cbn zeta.
  unfold Bracket.score, Bracket.after_ibnr, Bracket.before_ibnr,
    Bracket.severity_uncertainty, Bracket.stage_uncertainty,
    Bracket.ibnr_adjustment, Bracket.duration_adjustment,
    Bracket.severity_adjustment, Bracket.stage_adjustment.
  destruct (Z.ltb_spec 12 investigation_duration),
    (Z.ltb_spec 6 investigation_duration),
    (String.eqb_spec ibnr_flag "Yes"),
    (String.eqb_spec claim_stage "Reported"),
    (String.eqb_spec claim_stage "Under Investigation"),
    (String.eqb_spec severity_bracket "Catastrophic");
    cbn [Bracket.accrual_level Bracket.warnings Bracket.uncertainty_score
         Bracket.cap_uncertainty Bracket.add_uncertainty
         Bracket.append_warning Bracket.add_level Bracket.initial app];
    (split;
     [ repeat first [apply sublist_nil | apply sublist_skip
                     | apply sublist_cons]
     | split; [simpl; lia |] ]);
    repeat match goal with |- _ /\ _ => split end;
    (split; intros Hx; settle_membership Hx).
Qed.

Lemma cap_is_identity_below_one (st : Bracket.locals) :
  PrimFloat.ltb 1 (Bracket.uncertainty_score st) = false ->
  Bracket.cap_uncertainty st = st.
Proof.
  intros Hlt. destruct st as [lvl ws u]. unfold Bracket.cap_uncertainty,
    Py.min_float. cbn [Bracket.uncertainty_score] in *. by rewrite Hlt.
Qed.

(** The cap at 1.0 never takes effect: the increments sum to 0.95 at most,
    so the returned locals are the locals before the cap. *)
Theorem cap_never_applies (claim_stage severity_bracket : string)
    (investigation_duration : Z) (ibnr_flag : string) :
  Bracket.score claim_stage severity_bracket investigation_duration ibnr_flag
  = uncapped_score claim_stage severity_bracket investigation_duration
      ibnr_flag
  /\ PrimFloat.leb
       (Bracket.uncertainty_score
          (uncapped_score claim_stage severity_bracket investigation_duration
             ibnr_flag))
       0.95 = true.
Proof.
  split.
  - change (Bracket.score claim_stage severity_bracket investigation_duration
              ibnr_flag)
      with (Bracket.cap_uncertainty
              (uncapped_score claim_stage severity_bracket
                 investigation_duration ibnr_flag)).
    apply cap_is_identity_below_one.
    split_conditions; vm_compute; reflexivity.
  - split_conditions; vm_compute; reflexivity.
Qed.

(** ** The explanation text *)

Lemma string_append_assoc (a b c : string) :
  (a +:+ b) +:+ c = a +:+ (b +:+ c).
Proof.
  induction a as [| x a IH]; [reflexivity |].
  change (String x ((a +:+ b) +:+ c) = String x (a +:+ b +:+ c)).
  by f_equal.
Qed.

Lemma string_append_empty (a : string) : a +:+ "" = a.
Proof.
  induction a as [| x a IH]; [reflexivity |].
  change (String x (a +:+ "") = String x a). by f_equal.
Qed.

(** Appending the bullets one by one builds the same text as prepending
    them to the rest. *)
Lemma bullets_fold (warnings : list string) (acc : string) :
  foldl (fun acc warning => acc +:+ "- " +:+ warning +:+ Bracket.nl)
        acc warnings
  = acc +:+
    foldr (fun warning rest => "- " +:+ warning +:+ Bracket.nl +:+ rest)
          "" warnings.
Proof.
  revert acc. induction warnings as [| w ws IH]; intros acc.
  - simpl foldl. simpl foldr. by rewrite string_append_empty.
  - simpl foldl. simpl foldr. rewrite IH.
    by rewrite !string_append_assoc.
Qed.

(** The explanation is a body the warnings do not touch, then the
    warnings section (absent without warnings, otherwise one bullet per
    warning in the order emitted), then the mandatory disclaimers; so every
    text the classifier returns ends with the disclaimers. *)
Theorem explanation_structure (format_2f : float -> string)
    (claim_stage severity_bracket : string) (investigation_duration : Z)
    (ibnr_flag : string) :
  (forall (bracket : string) (accrual_level : Z) (uncertainty_score : float),
   exists body : string,
   forall warnings : list string,
     Bracket.generate_explanation format_2f claim_stage severity_bracket
       investigation_duration ibnr_flag bracket accrual_level warnings
       uncertainty_score
     = body +:+ warnings_section warnings +:+ Bracket.mandatory_disclaimers)
  /\ exists body : string,
       (Bracket.calculate_accrual_bracket format_2f claim_stage
          severity_bracket investigation_duration ibnr_flag).1.2
       = body
         +:+ warnings_section
               (Bracket.warnings
                  (Bracket.score claim_stage severity_bracket
                     investigation_duration ibnr_flag))
         +:+ Bracket.mandatory_disclaimers.
Proof.
  assert (Hgen : forall bracket accrual_level uncertainty_score,
            exists body : string, forall warnings : list string,
              Bracket.generate_explanation format_2f claim_stage
                severity_bracket investigation_duration ibnr_flag bracket
                accrual_level warnings uncertainty_score
              = body +:+ warnings_section warnings
                +:+ Bracket.mandatory_disclaimers).
  { intros bracket accrual_level uncertainty_score.
    unfold Bracket.generate_explanation. cbv zeta.
    eexists. intros [| w ws].
    - unfold warnings_section.
      change ("" +:+ Bracket.mandatory_disclaimers)
        with Bracket.mandatory_disclaimers.
      reflexivity.
    - unfold warnings_section. rewrite bullets_fold.
      by rewrite !string_append_assoc. }
  split; [exact Hgen |].
  unfold Bracket.calculate_accrual_bracket. cbv zeta.
  cbn [fst snd].
  destruct (Hgen
              (Bracket.determine_bracket
                 (Bracket.accrual_level
                    (Bracket.score claim_stage severity_bracket
                       investigation_duration ibnr_flag)))
              (Bracket.accrual_level
                 (Bracket.score claim_stage severity_bracket
                    investigation_duration ibnr_flag))
              (Bracket.uncertainty_score
                 (Bracket.score claim_stage severity_bracket
                    investigation_duration ibnr_flag)))
    as [body Hbody].
  exists body. apply Hbody.
Qed.
